(** * Saturating time arithmetic of [include/internal/time.h]

    A shallow embedding of the [OSSL_TIME] value type and of the inline
    functions defined over it, followed by the properties the specification
    states about them.

    Conventions:
    - a [uint64_t] is a [Z] in the range [0 .. 2^64-1]; the range is carried
      by the predicates [is_u64] and [time_wf], and every place where C would
      reduce modulo [2^64] is written out with [U64.wrap];
    - an [int] used as a flag or as a three-way result is a [Z];
    - an out-parameter ([int *err], [struct timeval *out]) is passed in and
      returned explicitly. *)

From Stdlib Require Import ZArith Lia Bool List.
From Stdlib Require Import Sorting.Permutation.
Import ListNotations.

Local Open Scope Z_scope.

(** ** Machine integers *)

Module U64.

Definition width : Z := 64.
Definition modulus : Z := 2 ^ width.

(** [~(uint64_t)0], the largest value of the type. *)
Definition max : Z := modulus - 1.

(** Reduction of a mathematical integer to its [uint64_t] value. *)
Definition wrap (z : Z) : Z := z mod modulus.

(** Bitwise complement at 64 bits. *)
Definition lnot (z : Z) : Z := wrap (Z.lnot z).

End U64.

(** A value that a [uint64_t] object can hold. *)
Definition is_u64 (z : Z) : Prop := 0 <= z <= U64.max.

Definition is_u64b (z : Z) : bool := (0 <=? z) && (z <=? U64.max).

(** Conversion of a non-negative value to a signed integer type that is
    [bits] wide (two's complement; the identity on values that fit). *)
Definition cast_signed (bits : Z) (z : Z) : Z :=
  (z + 2 ^ (bits - 1)) mod 2 ^ bits - 2 ^ (bits - 1).

(** C truth value of an [int]. *)
Definition c_true (e : Z) : bool := negb (e =? 0).

(** ** The time type *)

(** [typedef struct { uint64_t t; } OSSL_TIME;] *)
Record OSSL_TIME : Type := mk_OSSL_TIME { t : Z }.

Definition time_wf (a : OSSL_TIME) : Prop := is_u64 (t a).

Definition OSSL_TIME_SECOND : Z := 1000000000.
Definition OSSL_TIME_MS : Z := OSSL_TIME_SECOND / 1000.
Definition OSSL_TIME_US : Z := OSSL_TIME_MS / 1000.

Definition ossl_ticks2time (ticks : Z) : OSSL_TIME :=
  {| t := ticks |}.

Definition ossl_time2ticks (a : OSSL_TIME) : Z :=
  t a.

Definition ossl_time_zero : OSSL_TIME :=
  ossl_ticks2time 0.

Definition ossl_time_infinite : OSSL_TIME :=
  ossl_ticks2time (U64.lnot 0).

(** ** Conversion to [struct timeval] *)

Record timeval : Type := mk_timeval { tv_sec : Z; tv_usec : Z }.

(** The header does not fix the integer types of the two fields of
    [struct timeval]: [tv_sec] is [time_t], or [long int] under [_WIN32], and
    [tv_usec] is whatever the platform declares.  Their widths are parameters
    of the conversion; both preprocessor branches are the same expression up
    to the width of the cast. *)
Definition ossl_time_time_to_timeval
    (sec_bits usec_bits : Z) (tm : OSSL_TIME) (out : timeval) : timeval :=
  let out := {| tv_sec := cast_signed sec_bits (t tm / OSSL_TIME_SECOND);
                tv_usec := tv_usec out |} in
  let out := {| tv_sec := tv_sec out;
                tv_usec := cast_signed usec_bits
                             ((t tm mod OSSL_TIME_SECOND)
                              / (OSSL_TIME_SECOND / 1000000)) |} in
  out.

(** ** Comparison *)

Definition ossl_time_compare (a b : OSSL_TIME) : Z :=
  if t a >? t b then 1
  else if t a <? t b then -1
  else 0.

(** ** Checked arithmetic *)

(** Modelled from the spec: the functions [safe_add_time], [safe_sub_time],
    [safe_mul_time] and [safe_div_time] that [OSSL_SAFE_MATH_UNSIGNED(time,
    uint64_t)] generates from [internal/safe_math.h], a header that this
    development does not embed.  The specification treats them as a black
    box, [checkedAdd/Sub/Mul/Div(u64, u64) -> (u64, overflowed)], which
    reports overflow, underflow and division by zero through the flag instead
    of wrapping silently.  Each function takes the two operands and the
    current value of [*err] and returns the result with the new value of
    [*err].  When the exact result is representable it is returned and the
    flag is left alone; otherwise the flag comes back set.  Nothing is said
    about the result that accompanies a set flag. *)
Class SafeMathUnsigned : Type := {
  safe_add_time : Z -> Z -> Z -> Z * Z;
  safe_sub_time : Z -> Z -> Z -> Z * Z;
  safe_mul_time : Z -> Z -> Z -> Z * Z;
  safe_div_time : Z -> Z -> Z -> Z * Z;

  safe_add_exact : forall a b err,
    is_u64 a -> is_u64 b -> a + b <= U64.max ->
    safe_add_time a b err = (a + b, err);
  safe_add_overflow : forall a b err,
    is_u64 a -> is_u64 b -> U64.max < a + b ->
    c_true (snd (safe_add_time a b err)) = true;

  safe_sub_exact : forall a b err,
    is_u64 a -> is_u64 b -> b <= a ->
    safe_sub_time a b err = (a - b, err);
  safe_sub_underflow : forall a b err,
    is_u64 a -> is_u64 b -> a < b ->
    c_true (snd (safe_sub_time a b err)) = true;

  safe_mul_exact : forall a b err,
    is_u64 a -> is_u64 b -> a * b <= U64.max ->
    safe_mul_time a b err = (a * b, err);
  safe_mul_overflow : forall a b err,
    is_u64 a -> is_u64 b -> U64.max < a * b ->
    c_true (snd (safe_mul_time a b err)) = true;

  safe_div_exact : forall a b err,
    is_u64 a -> is_u64 b -> b <> 0 ->
    safe_div_time a b err = (a / b, err);
  safe_div_by_zero : forall a err,
    is_u64 a ->
    c_true (snd (safe_div_time a 0 err)) = true
}.

(** ** Saturating arithmetic *)

Section Arithmetic.

Context {SM : SafeMathUnsigned}.

Definition ossl_time_add (a b : OSSL_TIME) : OSSL_TIME :=
  let err := 0 in
  let '(rt, err) := safe_add_time (t a) (t b) err in
  let r := {| t := rt |} in
  if c_true err then ossl_time_infinite else r.

Definition ossl_time_subtract (a b : OSSL_TIME) : OSSL_TIME :=
  let err := 0 in
  let '(rt, err) := safe_sub_time (t a) (t b) err in
  let r := {| t := rt |} in
  if c_true err then ossl_time_zero else r.

(** Returns |a - b|. *)
Definition ossl_time_abs_difference (a b : OSSL_TIME) : OSSL_TIME :=
  if t a >? t b then ossl_time_subtract a b
  else ossl_time_subtract b a.

Definition ossl_time_multiply (a : OSSL_TIME) (b : Z) : OSSL_TIME :=
  let err := 0 in
  let '(rt, err) := safe_mul_time (t a) b err in
  let r := {| t := rt |} in
  if c_true err then ossl_time_infinite else r.

Definition ossl_time_divide (a : OSSL_TIME) (b : Z) : OSSL_TIME :=
  let err := 0 in
  let '(rt, err) := safe_div_time (t a) b err in
  let r := {| t := rt |} in
  if c_true err then ossl_time_zero else r.

End Arithmetic.

(** Return higher of the two given time values. *)
Definition ossl_time_max (a b : OSSL_TIME) : OSSL_TIME :=
  if t a >? t b then a else b.

(** Return the lower of the two given time values. *)
Definition ossl_time_min (a b : OSSL_TIME) : OSSL_TIME :=
  if t a <? t b then a else b.

(** *** Which operand comes back

    Both functions read the field [t] of their operands and hand one operand
    back whole.  [OSSL_TIME] has that one field and is passed by value, so two
    operands of equal tick count are the same value, and which of the two is
    handed back shows only on operands that carry something besides the time.
    [ossl_time_max_operand] and [ossl_time_min_operand] are the two
    conditional expressions of the source over such operands: [time_of] is
    the [OSSL_TIME] an operand holds, and the operand is what the conditional
    selects.  With [time_of] the identity they are [ossl_time_max] and
    [ossl_time_min]. *)

Section Operands.

Context {A : Type} (time_of : A -> OSSL_TIME).

Definition ossl_time_max_operand (a b : A) : A :=
  if t (time_of a) >? t (time_of b) then a else b.

Definition ossl_time_min_operand (a b : A) : A :=
  if t (time_of a) <? t (time_of b) then a else b.

End Operands.

(** ** A reference implementation of the checked primitives

    The usual portable formulation: compute the wrapped result and raise the
    flag with [*err |= 1] when the exact result does not fit.  It shows that
    the contract of [SafeMathUnsigned] can be met and lets the functions
    above be run on concrete inputs. *)

Module Reference.

Definition raise (err : Z) : Z := Z.lor err 1.

Definition add (a b err : Z) : Z * Z :=
  (U64.wrap (a + b), if b >? U64.max - a then raise err else err).

Definition sub (a b err : Z) : Z * Z :=
  (U64.wrap (a - b), if b >? a then raise err else err).

Definition mul (a b err : Z) : Z * Z :=
  let r := U64.wrap (a * b) in
  (r, if negb (b =? 0) && negb (a =? r / b) then raise err else err).

Definition div (a b err : Z) : Z * Z :=
  if negb (b =? 0) then (a / b, err)
  else (if a =? 0 then 0 else U64.max, raise err).

End Reference.

(** ** Basic facts *)

Lemma U64_max_eq : U64.max = 18446744073709551615.
Proof. reflexivity. Qed.

Lemma U64_lnot_0 : U64.lnot 0 = U64.max.
Proof. reflexivity. Qed.

Lemma U64_wrap_small (z : Z) : is_u64 z -> U64.wrap z = z.
Proof.
  unfold is_u64, U64.wrap. rewrite U64_max_eq. intros Hz.
  apply Z.mod_small. change U64.modulus with 18446744073709551616. lia.
Qed.

Lemma is_u64b_spec (z : Z) : is_u64b z = true <-> is_u64 z.
Proof.
  unfold is_u64, is_u64b.
  rewrite andb_true_iff, !Z.leb_le. tauto.
Qed.

Lemma c_true_raise (err : Z) : c_true (Reference.raise err) = true.
Proof.
  unfold c_true, Reference.raise.
  destruct (Z.eqb_spec (Z.lor err 1) 0) as [E | _]; [ | reflexivity].
  apply Z.lor_eq_0_iff in E. destruct E as [_ E]. discriminate E.
Qed.

(** Unfolds the range predicates down to linear constraints on literals. *)
Ltac u64_open :=
  unfold time_wf, is_u64 in *; rewrite ?U64_max_eq in *.

(** Equality of times is equality of tick counts. *)
Lemma time_eq (a b : OSSL_TIME) : t a = t b -> a = b.
Proof. destruct a, b; simpl; intros ->; reflexivity. Qed.

Lemma ticks2time_wf (n : Z) : is_u64 n -> time_wf (ossl_ticks2time n).
Proof. intros H; exact H. Qed.

Lemma time_zero_wf : time_wf ossl_time_zero.
Proof. unfold time_wf; cbn [ossl_time_zero ossl_ticks2time t]; u64_open; lia. Qed.

Lemma time_infinite_wf : time_wf ossl_time_infinite.
Proof.
  unfold time_wf; cbn [ossl_time_infinite ossl_ticks2time t].
  rewrite U64_lnot_0; u64_open; lia.
Qed.

(** *** The reference implementation meets the contract *)

Lemma ref_add_exact (a b err : Z) :
  is_u64 a -> is_u64 b -> a + b <= U64.max ->
  Reference.add a b err = (a + b, err).
Proof.
  intros Ha Hb Hs. unfold Reference.add.
  rewrite U64_wrap_small by (u64_open; lia).
  destruct (Z.gtb_spec b (U64.max - a)); [lia | reflexivity].
Qed.

Lemma ref_add_overflow (a b err : Z) :
  is_u64 a -> is_u64 b -> U64.max < a + b ->
  c_true (snd (Reference.add a b err)) = true.
Proof.
  intros _ _ Hs. unfold Reference.add; cbn [snd].
  destruct (Z.gtb_spec b (U64.max - a)); [apply c_true_raise | lia].
Qed.

Lemma ref_sub_exact (a b err : Z) :
  is_u64 a -> is_u64 b -> b <= a ->
  Reference.sub a b err = (a - b, err).
Proof.
  intros Ha Hb Hs. unfold Reference.sub.
  rewrite U64_wrap_small by (u64_open; lia).
  destruct (Z.gtb_spec b a); [lia | reflexivity].
Qed.

Lemma ref_sub_underflow (a b err : Z) :
  is_u64 a -> is_u64 b -> a < b ->
  c_true (snd (Reference.sub a b err)) = true.
Proof.
  intros _ _ Hs. unfold Reference.sub; cbn [snd].
  destruct (Z.gtb_spec b a); [apply c_true_raise | lia].
Qed.

Lemma ref_mul_exact (a b err : Z) :
  is_u64 a -> is_u64 b -> a * b <= U64.max ->
  Reference.mul a b err = (a * b, err).
Proof.
  intros Ha Hb Hp. unfold Reference.mul.
  rewrite U64_wrap_small by (u64_open; nia).
  destruct (Z.eqb_spec b 0) as [-> | Hnz]; [reflexivity | ].
  rewrite Z.div_mul by exact Hnz.
  rewrite Z.eqb_refl. reflexivity.
Qed.

Lemma ref_mul_overflow (a b err : Z) :
  is_u64 a -> is_u64 b -> U64.max < a * b ->
  c_true (snd (Reference.mul a b err)) = true.
Proof.
  intros Ha Hb Hp. unfold Reference.mul; cbn [snd].
  assert (Hb0 : 0 < b) by (u64_open; nia).
  assert (Hr : U64.wrap (a * b) < b * a).
  { unfold U64.wrap.
    pose proof (Z.mod_pos_bound (a * b) U64.modulus eq_refl) as Hm.
    change U64.modulus with 18446744073709551616 in *.
    u64_open. lia. }
  apply Z.div_lt_upper_bound in Hr; [ | exact Hb0].
  destruct (Z.eqb_spec b 0) as [E | _]; [lia | ].
  destruct (Z.eqb_spec a (U64.wrap (a * b) / b)) as [E | _]; [lia | ].
  apply c_true_raise.
Qed.

Lemma ref_div_exact (a b err : Z) :
  is_u64 a -> is_u64 b -> b <> 0 ->
  Reference.div a b err = (a / b, err).
Proof.
  intros _ _ Hnz. unfold Reference.div.
  destruct (Z.eqb_spec b 0); [contradiction | reflexivity].
Qed.

Lemma ref_div_by_zero (a err : Z) :
  is_u64 a ->
  c_true (snd (Reference.div a 0 err)) = true.
Proof.
  intros _. unfold Reference.div. cbn [Z.eqb negb snd].
  apply c_true_raise.
Qed.

Definition reference_safe_math : SafeMathUnsigned := {|
  safe_add_time := Reference.add;
  safe_sub_time := Reference.sub;
  safe_mul_time := Reference.mul;
  safe_div_time := Reference.div;
  safe_add_exact := ref_add_exact;
  safe_add_overflow := ref_add_overflow;
  safe_sub_exact := ref_sub_exact;
  safe_sub_underflow := ref_sub_underflow;
  safe_mul_exact := ref_mul_exact;
  safe_mul_overflow := ref_mul_overflow;
  safe_div_exact := ref_div_exact;
  safe_div_by_zero := ref_div_by_zero
|}.

(** ** The saturating operations, case by case *)

Section ArithmeticFacts.

Context {SM : SafeMathUnsigned}.

(** Runs one of the four operations down to the call of its primitive. *)
Ltac run_op :=
  unfold ossl_time_add, ossl_time_subtract, ossl_time_multiply,
         ossl_time_divide.

(** The primitive set the flag: the result is the sentinel. *)
Ltac flagged H :=
  run_op;
  match goal with
  | |- context [let '(_, _) := ?call in _] =>
      pose proof H as Hflag; destruct call as [rt e]; cbn [snd] in Hflag;
      rewrite Hflag; reflexivity
  end.

Lemma add_exact (a b : OSSL_TIME) :
  time_wf a -> time_wf b -> t a + t b <= U64.max ->
  ossl_time_add a b = ossl_ticks2time (t a + t b).
Proof.
  intros Ha Hb Hs. run_op.
  rewrite (safe_add_exact _ _ 0 Ha Hb Hs). reflexivity.
Qed.

Lemma add_overflow (a b : OSSL_TIME) :
  time_wf a -> time_wf b -> U64.max < t a + t b ->
  ossl_time_add a b = ossl_time_infinite.
Proof.
  intros Ha Hb Hs. flagged (safe_add_overflow _ _ 0 Ha Hb Hs).
Qed.

Lemma subtract_exact (a b : OSSL_TIME) :
  time_wf a -> time_wf b -> t b <= t a ->
  ossl_time_subtract a b = ossl_ticks2time (t a - t b).
Proof.
  intros Ha Hb Hs. run_op.
  rewrite (safe_sub_exact _ _ 0 Ha Hb Hs). reflexivity.
Qed.

Lemma subtract_underflow (a b : OSSL_TIME) :
  time_wf a -> time_wf b -> t a < t b ->
  ossl_time_subtract a b = ossl_time_zero.
Proof.
  intros Ha Hb Hs. flagged (safe_sub_underflow _ _ 0 Ha Hb Hs).
Qed.

Lemma multiply_exact (a : OSSL_TIME) (b : Z) :
  time_wf a -> is_u64 b -> t a * b <= U64.max ->
  ossl_time_multiply a b = ossl_ticks2time (t a * b).
Proof.
  intros Ha Hb Hp. run_op.
  rewrite (safe_mul_exact _ _ 0 Ha Hb Hp). reflexivity.
Qed.

Lemma multiply_overflow (a : OSSL_TIME) (b : Z) :
  time_wf a -> is_u64 b -> U64.max < t a * b ->
  ossl_time_multiply a b = ossl_time_infinite.
Proof.
  intros Ha Hb Hp. flagged (safe_mul_overflow _ _ 0 Ha Hb Hp).
Qed.

Lemma divide_exact (a : OSSL_TIME) (b : Z) :
  time_wf a -> is_u64 b -> b <> 0 ->
  ossl_time_divide a b = ossl_ticks2time (t a / b).
Proof.
  intros Ha Hb Hnz. run_op.
  rewrite (safe_div_exact _ _ 0 Ha Hb Hnz). reflexivity.
Qed.

Lemma divide_by_zero (a : OSSL_TIME) :
  time_wf a ->
  ossl_time_divide a 0 = ossl_time_zero.
Proof.
  intros Ha. flagged (safe_div_by_zero _ 0 Ha).
Qed.

End ArithmeticFacts.

(** ** Addition and subtraction *)

(** C1.  For well-formed times [a] and [b], [ossl_time_add a b] carries the
    exact sum of the two tick counts whenever that sum fits in 64 bits, and is
    [ossl_time_infinite], whose tick count is [2^64-1], whenever it does not.
    In particular zero is a left identity, and adding one tick to the
    infinite time leaves it infinite. *)
Theorem ossl_time_add_saturates {SM : SafeMathUnsigned} (a b : OSSL_TIME) :
  time_wf a -> time_wf b ->
  (t a + t b <= 2 ^ 64 - 1 ->
     ossl_time_add a b = ossl_ticks2time (t a + t b)) /\
  (2 ^ 64 - 1 < t a + t b ->
     ossl_time_add a b = ossl_time_infinite) /\
  ossl_time2ticks ossl_time_infinite = 2 ^ 64 - 1 /\
  ossl_time_add ossl_time_zero a = a /\
  ossl_time_add ossl_time_infinite (ossl_ticks2time 1) = ossl_time_infinite.
Proof.
  intros Ha Hb. repeat split.
  - intros Hs. now apply add_exact.
  - intros Hs. now apply add_overflow.
  - rewrite add_exact; auto using time_zero_wf.
    + apply time_eq. reflexivity.
    + cbn [ossl_time_zero ossl_ticks2time t]. u64_open. lia.
  - apply add_overflow; auto using time_infinite_wf.
    + apply ticks2time_wf. u64_open. lia.
    + cbn [ossl_time_infinite ossl_ticks2time t].
      rewrite U64_lnot_0, U64_max_eq. lia.
Qed.

Lemma ossl_time_add_saturates_witness :
  let SM := reference_safe_math in
  let a := ossl_ticks2time 18446744073709551615 in
  let b := ossl_ticks2time 1 in
  time_wf a /\ time_wf b /\
  ((t a + t b <= 2 ^ 64 - 1 ->
      ossl_time_add a b = ossl_ticks2time (t a + t b)) /\
   (2 ^ 64 - 1 < t a + t b ->
      ossl_time_add a b = ossl_time_infinite) /\
   ossl_time2ticks ossl_time_infinite = 2 ^ 64 - 1 /\
   ossl_time_add ossl_time_zero a = a /\
   ossl_time_add ossl_time_infinite (ossl_ticks2time 1) = ossl_time_infinite).
Proof.
  intros SM a b.
  assert (Ha : time_wf a) by (subst a; apply ticks2time_wf; u64_open; lia).
  assert (Hb : time_wf b) by (subst b; apply ticks2time_wf; u64_open; lia).
  exact (conj Ha (conj Hb (ossl_time_add_saturates a b Ha Hb))).
Defined.

(** C2.  For well-formed times [a] and [b], [ossl_time_subtract a b] carries
    [t a - t b] whenever [t b <= t a], and is [ossl_time_zero] whenever
    [t b] exceeds [t a].  The result never lies above [a]: underflow
    saturates down, never up.  In particular 5 ticks minus 10 ticks is
    zero. *)
Theorem ossl_time_subtract_saturates {SM : SafeMathUnsigned}
    (a b : OSSL_TIME) :
  time_wf a -> time_wf b ->
  (t b <= t a -> ossl_time_subtract a b = ossl_ticks2time (t a - t b)) /\
  (t a < t b -> ossl_time_subtract a b = ossl_time_zero) /\
  ossl_time2ticks ossl_time_zero = 0 /\
  0 <= t (ossl_time_subtract a b) <= t a /\
  ossl_time_subtract (ossl_ticks2time 5) (ossl_ticks2time 10) = ossl_time_zero.
Proof.
  intros Ha Hb. split; [ | split; [ | split; [ | split]]].
  - intros Hs. now apply subtract_exact.
  - intros Hs. now apply subtract_underflow.
  - reflexivity.
  - destruct (Z_le_gt_dec (t b) (t a)) as [Hle | Hgt].
    + rewrite subtract_exact by assumption.
      cbn [ossl_ticks2time t]. u64_open. lia.
    + rewrite subtract_underflow by (assumption || lia).
      cbn [ossl_time_zero ossl_ticks2time t]. u64_open. lia.
  - apply subtract_underflow.
    + apply ticks2time_wf. u64_open. lia.
    + apply ticks2time_wf. u64_open. lia.
    + cbn [ossl_ticks2time t]. lia.
Qed.

Lemma ossl_time_subtract_saturates_witness :
  let SM := reference_safe_math in
  let a := ossl_ticks2time 5 in
  let b := ossl_ticks2time 10 in
  time_wf a /\ time_wf b /\
  ((t b <= t a -> ossl_time_subtract a b = ossl_ticks2time (t a - t b)) /\
   (t a < t b -> ossl_time_subtract a b = ossl_time_zero) /\
   ossl_time2ticks ossl_time_zero = 0 /\
   0 <= t (ossl_time_subtract a b) <= t a /\
   ossl_time_subtract (ossl_ticks2time 5) (ossl_ticks2time 10)
   = ossl_time_zero).
Proof.
  intros SM a b.
  assert (Ha : time_wf a) by (subst a; apply ticks2time_wf; u64_open; lia).
  assert (Hb : time_wf b) by (subst b; apply ticks2time_wf; u64_open; lia).
  exact (conj Ha (conj Hb (ossl_time_subtract_saturates a b Ha Hb))).
Defined.

(** C10.  Below the saturation boundary addition and subtraction cancel: for
    well-formed [a] and [b] whose tick counts sum to at most [2^64-1],
    subtracting [b] from [ossl_time_add a b] gives back [a]. *)
Theorem ossl_time_add_subtract_cancel {SM : SafeMathUnsigned}
    (a b : OSSL_TIME) :
  time_wf a -> time_wf b -> t a + t b <= 2 ^ 64 - 1 ->
  ossl_time_subtract (ossl_time_add a b) b = a.
Proof.
  intros Ha Hb Hs.
  rewrite add_exact by assumption.
  rewrite subtract_exact.
  - apply time_eq. cbn [ossl_ticks2time t]. lia.
  - apply ticks2time_wf. u64_open. lia.
  - assumption.
  - cbn [ossl_ticks2time t]. u64_open. lia.
Qed.

Lemma ossl_time_add_subtract_cancel_witness :
  let SM := reference_safe_math in
  let a := ossl_ticks2time 18446744073709551000 in
  let b := ossl_ticks2time 615 in
  time_wf a /\ time_wf b /\ t a + t b <= 2 ^ 64 - 1 /\
  ossl_time_subtract (ossl_time_add a b) b = a.
Proof.
  intros SM a b.
  assert (Ha : time_wf a) by (subst a; apply ticks2time_wf; u64_open; lia).
  assert (Hb : time_wf b) by (subst b; apply ticks2time_wf; u64_open; lia).
  assert (Hs : t a + t b <= 2 ^ 64 - 1)
    by (subst a b; cbn [ossl_ticks2time t]; lia).
  exact (conj Ha (conj Hb (conj Hs
           (ossl_time_add_subtract_cancel a b Ha Hb Hs)))).
Defined.

(** ** Multiplication and division by a scalar *)

(** C5.  For a well-formed time [a] and a 64-bit scalar [s],
    [ossl_time_multiply a s] carries the exact product [t a * s] whenever
    that product fits in 64 bits, and is [ossl_time_infinite] whenever it
    does not.  In particular the largest tick count times 2 is infinite. *)
Theorem ossl_time_multiply_saturates {SM : SafeMathUnsigned}
    (a : OSSL_TIME) (s : Z) :
  time_wf a -> is_u64 s ->
  (t a * s <= 2 ^ 64 - 1 ->
     ossl_time_multiply a s = ossl_ticks2time (t a * s)) /\
  (2 ^ 64 - 1 < t a * s ->
     ossl_time_multiply a s = ossl_time_infinite) /\
  ossl_time_multiply (ossl_ticks2time (2 ^ 64 - 1)) 2 = ossl_time_infinite.
Proof.
  intros Ha Hs. repeat split.
  - intros Hp. now apply multiply_exact.
  - intros Hp. now apply multiply_overflow.
  - apply multiply_overflow.
    + apply ticks2time_wf. u64_open. lia.
    + u64_open. lia.
    + cbn [ossl_ticks2time t]. rewrite U64_max_eq. lia.
Qed.

Lemma ossl_time_multiply_saturates_witness :
  let SM := reference_safe_math in
  let a := ossl_ticks2time 6148914691236517205 in
  let s := 3 in
  time_wf a /\ is_u64 s /\
  ((t a * s <= 2 ^ 64 - 1 ->
      ossl_time_multiply a s = ossl_ticks2time (t a * s)) /\
   (2 ^ 64 - 1 < t a * s ->
      ossl_time_multiply a s = ossl_time_infinite) /\
   ossl_time_multiply (ossl_ticks2time (2 ^ 64 - 1)) 2 = ossl_time_infinite).
Proof.
  intros SM a s.
  assert (Ha : time_wf a) by (subst a; apply ticks2time_wf; u64_open; lia).
  assert (Hs : is_u64 s) by (subst s; u64_open; lia).
  exact (conj Ha (conj Hs (ossl_time_multiply_saturates a s Ha Hs))).
Defined.

(** C3.  For a well-formed time [x] and a 64-bit scalar [s],
    [ossl_time_divide x s] is [ossl_time_zero] when [s] is 0 and carries the
    truncating quotient of [t x] by [s] otherwise.  Division by zero is a
    value like any other, and it is zero rather than the infinite time. *)
Theorem ossl_time_divide_by_scalar {SM : SafeMathUnsigned}
    (x : OSSL_TIME) (s : Z) :
  time_wf x -> is_u64 s ->
  (s = 0 -> ossl_time_divide x s = ossl_time_zero) /\
  (s <> 0 -> ossl_time_divide x s = ossl_ticks2time (Z.quot (t x) s)) /\
  ossl_time_divide x 0 = ossl_time_zero /\
  ossl_time_divide x 0 <> ossl_time_infinite.
Proof.
  intros Hx Hs.
  assert (Hz : ossl_time_divide x 0 = ossl_time_zero)
    by now apply divide_by_zero.
  repeat split.
  - intros ->. exact Hz.
  - intros Hnz. rewrite divide_exact by assumption.
    rewrite Z.quot_div_nonneg; [reflexivity | | ]; u64_open; lia.
  - exact Hz.
  - rewrite Hz. discriminate.
Qed.

Lemma ossl_time_divide_by_scalar_witness :
  let SM := reference_safe_math in
  let x := ossl_ticks2time 1500000000 in
  let s := 7 in
  time_wf x /\ is_u64 s /\
  ((s = 0 -> ossl_time_divide x s = ossl_time_zero) /\
   (s <> 0 -> ossl_time_divide x s = ossl_ticks2time (Z.quot (t x) s)) /\
   ossl_time_divide x 0 = ossl_time_zero /\
   ossl_time_divide x 0 <> ossl_time_infinite).
Proof.
  intros SM x s.
  assert (Hx : time_wf x) by (subst x; apply ticks2time_wf; u64_open; lia).
  assert (Hs : is_u64 s) by (subst s; u64_open; lia).
  exact (conj Hx (conj Hs (ossl_time_divide_by_scalar x s Hx Hs))).
Defined.

(** ** Comparison, minimum and maximum *)

Lemma compare_cases (a b : OSSL_TIME) :
  (t a < t b /\ ossl_time_compare a b = -1) \/
  (t a = t b /\ ossl_time_compare a b = 0) \/
  (t b < t a /\ ossl_time_compare a b = 1).
Proof.
  unfold ossl_time_compare.
  destruct (Z.gtb_spec (t a) (t b)); [right; right; now split | ].
  destruct (Z.ltb_spec (t a) (t b)); [left; now split | ].
  right; left; split; [lia | reflexivity].
Qed.

Lemma max_cases (a b : OSSL_TIME) :
  (t b < t a /\ ossl_time_max a b = a) \/
  (t a <= t b /\ ossl_time_max a b = b).
Proof.
  unfold ossl_time_max.
  destruct (Z.gtb_spec (t a) (t b)); [left | right]; now split.
Qed.

Lemma min_cases (a b : OSSL_TIME) :
  (t a < t b /\ ossl_time_min a b = a) \/
  (t b <= t a /\ ossl_time_min a b = b).
Proof.
  unfold ossl_time_min.
  destruct (Z.ltb_spec (t a) (t b)); [left | right]; now split.
Qed.

(** C7.  [ossl_time_compare] orders times by their raw tick counts: it is
    [-1] exactly when [t a < t b], [1] exactly when [t a > t b] and [0]
    exactly when the tick counts are equal.  Hence swapping the operands
    negates the result, and every time compares equal to itself. *)
Theorem ossl_time_compare_total_order (a b : OSSL_TIME) :
  (ossl_time_compare a b = -1 <-> t a < t b) /\
  (ossl_time_compare a b = 1 <-> t a > t b) /\
  (ossl_time_compare a b = 0 <-> t a = t b) /\
  ossl_time_compare a b = - ossl_time_compare b a /\
  ossl_time_compare a a = 0.
Proof.
  pose proof (compare_cases a b) as Hab.
  pose proof (compare_cases b a) as Hba.
  pose proof (compare_cases a a) as Haa.
  repeat split; try intros H;
    destruct Hab as [[? ?] | [[? ?] | [? ?]]];
    destruct Hba as [[? ?] | [[? ?] | [? ?]]];
    destruct Haa as [[? ?] | [[? ?] | [? ?]]]; lia.
Qed.

(** C8.  The pair [(ossl_time_min a b, ossl_time_max a b)] is a permutation
    of [(a, b)]: each result is one of the operands, every operand is one of
    the results, and the minimum never compares above the maximum. *)
Theorem ossl_time_min_max_permutation (a b : OSSL_TIME) :
  Permutation [ossl_time_min a b; ossl_time_max a b] [a; b] /\
  (ossl_time_min a b = a \/ ossl_time_min a b = b) /\
  (ossl_time_max a b = a \/ ossl_time_max a b = b) /\
  (forall x, x = a \/ x = b <->
             x = ossl_time_min a b \/ x = ossl_time_max a b) /\
  ossl_time_compare (ossl_time_min a b) (ossl_time_max a b) <= 0.
Proof.
  destruct (min_cases a b) as [[Hlt Hmin] | [Hge Hmin]];
    destruct (max_cases a b) as [[Hgt Hmax] | [Hle Hmax]];
    rewrite Hmin, Hmax; try lia.
  - (* t a < t b: the pair is (a, b) *)
    repeat split; auto; try tauto.
    destruct (compare_cases a b) as [[? ->] | [[? ?] | [? ?]]]; lia.
  - (* t b < t a: the pair is (b, a) *)
    repeat split; auto; try tauto.
    + apply perm_swap.
    + destruct (compare_cases b a) as [[? ->] | [[? ?] | [? ?]]]; lia.
  - (* equal tick counts: both are b, and a is b *)
    assert (E : a = b) by (apply time_eq; lia). subst a.
    repeat split; auto; try tauto.
    destruct (compare_cases b b) as [[? ?] | [[? ->] | [? ?]]]; lia.
Qed.

(** The operand-level conditionals are the source functions: literally so on
    plain times, and through [time_of] on every operand type. *)
Lemma max_operand_plain (a b : OSSL_TIME) :
  ossl_time_max_operand (fun x => x) a b = ossl_time_max a b.
Proof. reflexivity. Qed.

Lemma min_operand_plain (a b : OSSL_TIME) :
  ossl_time_min_operand (fun x => x) a b = ossl_time_min a b.
Proof. reflexivity. Qed.





(** At a tie the second operand comes back, whichever position it has: the
    operand selected changes when the two are swapped. *)
Example tie_selects_second_operand :
  let T := ossl_ticks2time 1500000000 in
  ossl_time_max_operand fst (T, 1) (T, 2) = (T, 2) /\
  ossl_time_min_operand fst (T, 1) (T, 2) = (T, 2) /\
  ossl_time_max_operand fst (T, 2) (T, 1) = (T, 1) /\
  ossl_time_min_operand fst (T, 2) (T, 1) = (T, 1).
Proof. repeat split. Qed.

(** ** Absolute difference *)

(** C4.  For well-formed times [a] and [b], [ossl_time_abs_difference a b]
    is the larger operand minus the smaller one, its tick count is exactly
    [|t a - t b|] (the subtraction never saturates), and the operation is
    symmetric. *)
Theorem ossl_time_abs_difference_exact {SM : SafeMathUnsigned}
    (a b : OSSL_TIME) :
  time_wf a -> time_wf b ->
  ossl_time_abs_difference a b
  = ossl_time_subtract (ossl_time_max a b) (ossl_time_min a b) /\
  t (ossl_time_abs_difference a b) = Z.abs (t a - t b) /\
  ossl_time_abs_difference a b = ossl_time_abs_difference b a.
Proof.
  intros Ha Hb. unfold ossl_time_abs_difference.
  destruct (min_cases a b) as [[Hlt Hmin] | [Hge Hmin]];
    destruct (max_cases a b) as [[Hgt Hmax] | [Hle Hmax]];
    rewrite Hmin, Hmax; try lia;
    destruct (Z.gtb_spec (t a) (t b)); try lia;
    destruct (Z.gtb_spec (t b) (t a)); try lia.
  - repeat split.
    rewrite subtract_exact by (assumption || lia).
    cbn [ossl_ticks2time t]. lia.
  - repeat split.
    rewrite subtract_exact by (assumption || lia).
    cbn [ossl_ticks2time t]. lia.
  - assert (E : a = b) by (apply time_eq; lia). subst a.
    repeat split.
    rewrite subtract_exact by (assumption || lia).
    cbn [ossl_ticks2time t]. lia.
Qed.

Lemma ossl_time_abs_difference_exact_witness :
  let SM := reference_safe_math in
  let a := ossl_ticks2time 5 in
  let b := ossl_ticks2time 18446744073709551615 in
  time_wf a /\ time_wf b /\
  (ossl_time_abs_difference a b
   = ossl_time_subtract (ossl_time_max a b) (ossl_time_min a b) /\
   t (ossl_time_abs_difference a b) = Z.abs (t a - t b) /\
   ossl_time_abs_difference a b = ossl_time_abs_difference b a).
Proof.
  intros SM a b.
  assert (Ha : time_wf a) by (subst a; apply ticks2time_wf; u64_open; lia).
  assert (Hb : time_wf b) by (subst b; apply ticks2time_wf; u64_open; lia).
  exact (conj Ha (conj Hb (ossl_time_abs_difference_exact a b Ha Hb))).
Defined.

(** ** Conversion to seconds and microseconds *)

(** A value that fits the signed type is left alone by the cast. *)
Lemma cast_signed_small (bits z : Z) :
  1 <= bits -> 0 <= z < 2 ^ (bits - 1) ->
  cast_signed bits z = z.
Proof.
  intros Hbits Hz. unfold cast_signed.
  replace (2 ^ bits) with (2 * 2 ^ (bits - 1)).
  - rewrite Z.mod_small by lia. lia.
  - rewrite <- Z.pow_succ_r by lia. f_equal. lia.
Qed.

Lemma pow2_le_mono (m n : Z) : 0 <= m <= n -> 2 ^ m <= 2 ^ n.
Proof. intros H. apply Z.pow_le_mono_r; lia. Qed.

(** The two fields, for every target wide enough to hold them: 36 bits for
    the seconds of the largest tick count, 21 bits for 999999. *)
Lemma timeval_fields (sec_bits usec_bits : Z) (tm : OSSL_TIME) (out : timeval) :
  36 <= sec_bits -> 21 <= usec_bits -> time_wf tm ->
  ossl_time_time_to_timeval sec_bits usec_bits tm out
  = {| tv_sec := t tm / 1000000000;
       tv_usec := (t tm mod 1000000000) / 1000 |}.
Proof.
  intros Hs Hu Htm. unfold ossl_time_time_to_timeval. cbn [tv_sec tv_usec].
  change (OSSL_TIME_SECOND / 1000000) with 1000.
  change OSSL_TIME_SECOND with 1000000000.
  pose proof (pow2_le_mono 35 (sec_bits - 1) ltac:(lia)) as Ps.
  pose proof (pow2_le_mono 20 (usec_bits - 1) ltac:(lia)) as Pu.
  change (2 ^ 35) with 34359738368 in Ps.
  change (2 ^ 20) with 1048576 in Pu.
  pose proof (Z.mod_pos_bound (t tm) 1000000000 eq_refl) as Hm.
  f_equal; apply cast_signed_small; try lia.
  - split; [apply Z.div_pos; u64_open; lia | ].
    apply Z.lt_le_trans with 34359738368; [ | exact Ps].
    apply Z.div_lt_upper_bound; u64_open; lia.
  - split; [apply Z.div_pos; lia | ].
    apply Z.lt_le_trans with 1048576; [ | exact Pu].
    apply Z.div_lt_upper_bound; lia.
Qed.

(** C6.  With a seconds field of 64 bits or more (and a microseconds field of
    at least 32), converting a well-formed time yields seconds equal to the
    tick count divided by 1,000,000,000 and microseconds equal to the
    remainder divided by 1,000.  The microseconds lie in [0, 999999] and are
    truncated, not rounded.  In particular 1,500,000,000 ticks give 1 second
    and 500000 microseconds. *)
Theorem ossl_time_time_to_timeval_split
    (sec_bits usec_bits : Z) (tm : OSSL_TIME) (out : timeval) :
  64 <= sec_bits -> 32 <= usec_bits -> time_wf tm ->
  let tv := ossl_time_time_to_timeval sec_bits usec_bits tm out in
  tv_sec tv = t tm / 1000000000 /\
  tv_usec tv = (t tm mod 1000000000) / 1000 /\
  0 <= tv_usec tv <= 999999 /\
  1000 * tv_usec tv <= t tm mod 1000000000 < 1000 * tv_usec tv + 1000 /\
  ossl_time_time_to_timeval sec_bits usec_bits
    (ossl_ticks2time 1500000000) out
  = {| tv_sec := 1; tv_usec := 500000 |}.
Proof.
  intros Hs Hu Htm tv. subst tv.
  rewrite !timeval_fields by
    (lia || assumption || (apply ticks2time_wf; u64_open; lia)).
  cbn [tv_sec tv_usec ossl_ticks2time t].
  pose proof (Z.mod_pos_bound (t tm) 1000000000 eq_refl) as Hm.
  pose proof (Z.div_mod (t tm mod 1000000000) 1000 ltac:(lia)) as Hq.
  pose proof (Z.mod_pos_bound (t tm mod 1000000000) 1000 eq_refl) as Hr.
  repeat split; try lia.
Qed.

Lemma ossl_time_time_to_timeval_split_witness :
  let tm := ossl_ticks2time 18446744073709551615 in
  let out := {| tv_sec := -1; tv_usec := -1 |} in
  64 <= 64 /\ 32 <= 32 /\ time_wf tm /\
  (let tv := ossl_time_time_to_timeval 64 32 tm out in
   tv_sec tv = t tm / 1000000000 /\
   tv_usec tv = (t tm mod 1000000000) / 1000 /\
   0 <= tv_usec tv <= 999999 /\
   1000 * tv_usec tv <= t tm mod 1000000000 < 1000 * tv_usec tv + 1000 /\
   ossl_time_time_to_timeval 64 32 (ossl_ticks2time 1500000000) out
   = {| tv_sec := 1; tv_usec := 500000 |}).
Proof.
  intros tm out.
  assert (Hs : 64 <= 64) by lia.
  assert (Hu : 32 <= 32) by lia.
  assert (Htm : time_wf tm)
    by (subst tm; apply ticks2time_wf; u64_open; lia).
  exact (conj Hs (conj Hu (conj Htm
           (ossl_time_time_to_timeval_split 64 32 tm out Hs Hu Htm)))).
Defined.

(** The width of the seconds field matters.  A 32-bit field cannot hold the
    seconds of every tick count: for the infinite time the quotient
    18446744073 is reduced modulo [2^32]. *)
Remark timeval_seconds_32_bits (out : timeval) :
  t ossl_time_infinite / OSSL_TIME_SECOND = 18446744073 /\
  tv_sec (ossl_time_time_to_timeval 32 32 ossl_time_infinite out)
  = 1266874889.
Proof. split; reflexivity. Qed.

(** ** Sample evaluations with the reference primitives *)

Example add_below_boundary :
  ossl_time_add (SM := reference_safe_math)
    (ossl_ticks2time 5) (ossl_ticks2time 7) = ossl_ticks2time 12.
Proof. reflexivity. Qed.

Example add_at_boundary :
  ossl_time_add (SM := reference_safe_math)
    (ossl_ticks2time 18446744073709551614) (ossl_ticks2time 2)
  = ossl_time_infinite.
Proof. reflexivity. Qed.

Example subtract_below_zero :
  ossl_time_subtract (SM := reference_safe_math)
    (ossl_ticks2time 5) (ossl_ticks2time 10) = ossl_time_zero.
Proof. reflexivity. Qed.

Example multiply_past_boundary :
  ossl_time_multiply (SM := reference_safe_math)
    (ossl_ticks2time 18446744073709551615) 2 = ossl_time_infinite.
Proof. reflexivity. Qed.

Example divide_truncates :
  ossl_time_divide (SM := reference_safe_math) (ossl_ticks2time 17) 5
  = ossl_ticks2time 3.
Proof. reflexivity. Qed.

Example timeval_truncates_microseconds (out : timeval) :
  ossl_time_time_to_timeval 64 32 (ossl_ticks2time 1999999999) out
  = {| tv_sec := 1; tv_usec := 999999 |}.
Proof. reflexivity. Qed.

Example compare_zero_infinite :
  ossl_time_compare ossl_time_zero ossl_time_infinite = -1.
Proof. reflexivity. Qed.

(** * Further properties of the time algebra

    The saturating operations seen through their tick counts: each one is
    the exact operation clamped to the range of the type.  The laws below are
    derived from these descriptions. *)

Create HintDb time_wf discriminated.

Section TickCounts.

Context {SM : SafeMathUnsigned}.

Lemma add_ticks (a b : OSSL_TIME) :
  time_wf a -> time_wf b ->
  t (ossl_time_add a b) = Z.min (t a + t b) U64.max.
Proof.
  intros Ha Hb. destruct (Z_le_gt_dec (t a + t b) U64.max) as [Hle | Hgt].
  - rewrite add_exact by assumption. cbn [ossl_ticks2time t]. lia.
  - rewrite add_overflow by (assumption || lia).
    cbn [ossl_time_infinite ossl_ticks2time t]. rewrite U64_lnot_0. lia.
Qed.

Lemma subtract_ticks (a b : OSSL_TIME) :
  time_wf a -> time_wf b ->
  t (ossl_time_subtract a b) = Z.max (t a - t b) 0.
Proof.
  intros Ha Hb. destruct (Z_le_gt_dec (t b) (t a)) as [Hle | Hgt].
  - rewrite subtract_exact by assumption. cbn [ossl_ticks2time t]. lia.
  - rewrite subtract_underflow by (assumption || lia).
    cbn [ossl_time_zero ossl_ticks2time t]. lia.
Qed.

Lemma multiply_ticks (a : OSSL_TIME) (s : Z) :
  time_wf a -> is_u64 s ->
  t (ossl_time_multiply a s) = Z.min (t a * s) U64.max.
Proof.
  intros Ha Hs. destruct (Z_le_gt_dec (t a * s) U64.max) as [Hle | Hgt].
  - rewrite multiply_exact by assumption. cbn [ossl_ticks2time t]. lia.
  - rewrite multiply_overflow by (assumption || lia).
    cbn [ossl_time_infinite ossl_ticks2time t]. rewrite U64_lnot_0. lia.
Qed.

Lemma divide_ticks (a : OSSL_TIME) (s : Z) :
  time_wf a -> is_u64 s ->
  t (ossl_time_divide a s) = if s =? 0 then 0 else t a / s.
Proof.
  intros Ha Hs. destruct (Z.eqb_spec s 0) as [-> | Hnz].
  - rewrite divide_by_zero by assumption. reflexivity.
  - rewrite divide_exact by assumption. reflexivity.
Qed.

Lemma abs_difference_ticks (a b : OSSL_TIME) :
  time_wf a -> time_wf b ->
  t (ossl_time_abs_difference a b) = Z.abs (t a - t b).
Proof.
  intros Ha Hb. unfold ossl_time_abs_difference.
  destruct (Z.gtb_spec (t a) (t b));
    rewrite subtract_ticks by assumption; lia.
Qed.

Lemma add_wf (a b : OSSL_TIME) :
  time_wf a -> time_wf b -> time_wf (ossl_time_add a b).
Proof.
  intros Ha Hb. unfold time_wf at 1. rewrite add_ticks by assumption.
  u64_open. lia.
Qed.

Lemma subtract_wf (a b : OSSL_TIME) :
  time_wf a -> time_wf b -> time_wf (ossl_time_subtract a b).
Proof.
  intros Ha Hb. unfold time_wf at 1. rewrite subtract_ticks by assumption.
  u64_open. lia.
Qed.

Lemma abs_difference_wf (a b : OSSL_TIME) :
  time_wf a -> time_wf b -> time_wf (ossl_time_abs_difference a b).
Proof.
  intros Ha Hb. unfold ossl_time_abs_difference.
  destruct (t a >? t b); now apply subtract_wf.
Qed.

Lemma multiply_wf (a : OSSL_TIME) (s : Z) :
  time_wf a -> is_u64 s -> time_wf (ossl_time_multiply a s).
Proof.
  intros Ha Hs. unfold time_wf at 1. rewrite multiply_ticks by assumption.
  u64_open. nia.
Qed.

Lemma divide_wf (a : OSSL_TIME) (s : Z) :
  time_wf a -> is_u64 s -> time_wf (ossl_time_divide a s).
Proof.
  intros Ha Hs. unfold time_wf at 1. rewrite divide_ticks by assumption.
  destruct (Z.eqb_spec s 0) as [-> | Hnz]; [u64_open; lia | ].
  assert (0 <= t a / s) by (apply Z.div_pos; u64_open; lia).
  assert (t a / s <= t a) by (apply Z.div_le_upper_bound; u64_open; nia).
  u64_open. lia.
Qed.

End TickCounts.

Lemma max_ticks (a b : OSSL_TIME) :
  t (ossl_time_max a b) = Z.max (t a) (t b).
Proof. destruct (max_cases a b) as [[? ->] | [? ->]]; lia. Qed.

Lemma min_ticks (a b : OSSL_TIME) :
  t (ossl_time_min a b) = Z.min (t a) (t b).
Proof. destruct (min_cases a b) as [[? ->] | [? ->]]; lia. Qed.

Lemma max_wf (a b : OSSL_TIME) :
  time_wf a -> time_wf b -> time_wf (ossl_time_max a b).
Proof. intros Ha Hb. destruct (max_cases a b) as [[? ->] | [? ->]]; auto. Qed.

Lemma min_wf (a b : OSSL_TIME) :
  time_wf a -> time_wf b -> time_wf (ossl_time_min a b).
Proof. intros Ha Hb. destruct (min_cases a b) as [[? ->] | [? ->]]; auto. Qed.

Lemma compare_le_iff (a b : OSSL_TIME) :
  ossl_time_compare a b <= 0 <-> t a <= t b.
Proof.
  destruct (compare_cases a b) as [[? ->] | [[? ->] | [? ->]]]; lia.
Qed.

Lemma zero_ticks : t ossl_time_zero = 0.
Proof. reflexivity. Qed.

Lemma infinite_ticks : t ossl_time_infinite = U64.max.
Proof. reflexivity. Qed.

#[global] Hint Resolve add_wf subtract_wf abs_difference_wf multiply_wf
  divide_wf max_wf min_wf time_zero_wf time_infinite_wf : time_wf.

(** Rewrites every operation in the goal to its tick count, innermost
    operands proved in range by the closure lemmas. *)
Ltac to_ticks :=
  try apply time_eq;
  rewrite ?compare_le_iff;
  repeat first
    [ rewrite add_ticks by auto with time_wf
    | rewrite subtract_ticks by auto with time_wf
    | rewrite abs_difference_ticks by auto with time_wf
    | rewrite multiply_ticks by auto with time_wf
    | rewrite divide_ticks by auto with time_wf
    | rewrite max_ticks
    | rewrite min_ticks
    | rewrite zero_ticks
    | rewrite infinite_ticks ].

(** Discharges the range condition of a literal tick count. *)
Ltac wf_literal :=
  first [ apply ticks2time_wf | idtac ]; u64_open; lia.

(** ** Order *)

(** X1.  The order tested by [ossl_time_compare] is transitive. *)
Theorem ossl_time_compare_transitive (a b c : OSSL_TIME) :
  ossl_time_compare a b <= 0 -> ossl_time_compare b c <= 0 ->
  ossl_time_compare a c <= 0.
Proof. rewrite !compare_le_iff. lia. Qed.

Lemma ossl_time_compare_transitive_witness :
  let a := ossl_time_zero in
  let b := ossl_ticks2time 1500000000 in
  let c := ossl_time_infinite in
  ossl_time_compare a b <= 0 /\ ossl_time_compare b c <= 0 /\
  ossl_time_compare a c <= 0.
Proof.
  intros a b c.
  assert (Hab : ossl_time_compare a b <= 0) by (vm_compute; discriminate).
  assert (Hbc : ossl_time_compare b c <= 0) by (vm_compute; discriminate).
  exact (conj Hab (conj Hbc (ossl_time_compare_transitive a b c Hab Hbc))).
Defined.

(** X2.  Under [ossl_time_compare] the zero time is the least and the
    infinite time the greatest of all well-formed times. *)
Theorem ossl_time_compare_bounds (a : OSSL_TIME) :
  time_wf a ->
  ossl_time_compare ossl_time_zero a <= 0 /\
  ossl_time_compare a ossl_time_infinite <= 0.
Proof.
  intros Ha. rewrite !compare_le_iff, zero_ticks, infinite_ticks.
  u64_open. lia.
Qed.

Lemma ossl_time_compare_bounds_witness :
  let a := ossl_ticks2time 18446744073709551615 in
  time_wf a /\
  (ossl_time_compare ossl_time_zero a <= 0 /\
   ossl_time_compare a ossl_time_infinite <= 0).
Proof.
  intros a.
  assert (Ha : time_wf a) by (subst a; wf_literal).
  exact (conj Ha (ossl_time_compare_bounds a Ha)).
Defined.

(** X3.  Comparison and subtraction agree: [a] compares at most equal to [b]
    exactly when [ossl_time_subtract a b] is the zero time. *)
Theorem ossl_time_compare_subtract {SM : SafeMathUnsigned}
    (a b : OSSL_TIME) :
  time_wf a -> time_wf b ->
  (ossl_time_compare a b <= 0 <-> ossl_time_subtract a b = ossl_time_zero).
Proof.
  intros Ha Hb. rewrite compare_le_iff. split.
  - intros Hle. to_ticks. lia.
  - intros E. apply (f_equal t) in E. revert E. to_ticks. lia.
Qed.

Lemma ossl_time_compare_subtract_witness :
  let SM := reference_safe_math in
  let a := ossl_ticks2time 7 in
  let b := ossl_ticks2time 7 in
  time_wf a /\ time_wf b /\
  (ossl_time_compare a b <= 0 <-> ossl_time_subtract a b = ossl_time_zero).
Proof.
  intros SM a b.
  assert (Ha : time_wf a) by (subst a; wf_literal).
  assert (Hb : time_wf b) by (subst b; wf_literal).
  exact (conj Ha (conj Hb (ossl_time_compare_subtract a b Ha Hb))).
Defined.

(** ** Closure *)

(** X4.  Every arithmetic operation maps tick counts in the 64-bit range to
    a tick count in the 64-bit range, whether or not it saturates. *)
Theorem ossl_time_arithmetic_in_range {SM : SafeMathUnsigned}
    (a b : OSSL_TIME) (s : Z) :
  time_wf a -> time_wf b -> is_u64 s ->
  time_wf (ossl_time_add a b) /\
  time_wf (ossl_time_subtract a b) /\
  time_wf (ossl_time_abs_difference a b) /\
  time_wf (ossl_time_multiply a s) /\
  time_wf (ossl_time_divide a s).
Proof.
  intros Ha Hb Hs.
  split; [ | split; [ | split; [ | split]]]; auto with time_wf.
Qed.

Lemma ossl_time_arithmetic_in_range_witness :
  let SM := reference_safe_math in
  let a := ossl_ticks2time 18446744073709551615 in
  let b := ossl_ticks2time 18446744073709551615 in
  let s := 18446744073709551615 in
  time_wf a /\ time_wf b /\ is_u64 s /\
  (time_wf (ossl_time_add a b) /\
   time_wf (ossl_time_subtract a b) /\
   time_wf (ossl_time_abs_difference a b) /\
   time_wf (ossl_time_multiply a s) /\
   time_wf (ossl_time_divide a s)).
Proof.
  intros SM a b s.
  assert (Ha : time_wf a) by (subst a; wf_literal).
  assert (Hb : time_wf b) by (subst b; wf_literal).
  assert (Hs : is_u64 s) by (subst s; wf_literal).
  exact (conj Ha (conj Hb (conj Hs
           (ossl_time_arithmetic_in_range a b s Ha Hb Hs)))).
Defined.

(** ** Addition *)

(** X5.  Saturating addition is commutative. *)
Theorem ossl_time_add_comm {SM : SafeMathUnsigned} (a b : OSSL_TIME) :
  time_wf a -> time_wf b ->
  ossl_time_add a b = ossl_time_add b a.
Proof. intros Ha Hb. to_ticks. lia. Qed.

Lemma ossl_time_add_comm_witness :
  let SM := reference_safe_math in
  let a := ossl_ticks2time 18446744073709551000 in
  let b := ossl_ticks2time 1000 in
  time_wf a /\ time_wf b /\
  ossl_time_add a b = ossl_time_add b a.
Proof.
  intros SM a b.
  assert (Ha : time_wf a) by (subst a; wf_literal).
  assert (Hb : time_wf b) by (subst b; wf_literal).
  exact (conj Ha (conj Hb (ossl_time_add_comm a b Ha Hb))).
Defined.

(** X6.  Saturating addition is associative: the grouping of a sum does not
    change whether, or where, it saturates. *)
Theorem ossl_time_add_assoc {SM : SafeMathUnsigned} (a b c : OSSL_TIME) :
  time_wf a -> time_wf b -> time_wf c ->
  ossl_time_add (ossl_time_add a b) c = ossl_time_add a (ossl_time_add b c).
Proof. intros Ha Hb Hc. to_ticks. u64_open. lia. Qed.

Lemma ossl_time_add_assoc_witness :
  let SM := reference_safe_math in
  let a := ossl_ticks2time 18446744073709551000 in
  let b := ossl_ticks2time 600 in
  let c := ossl_ticks2time 15 in
  time_wf a /\ time_wf b /\ time_wf c /\
  ossl_time_add (ossl_time_add a b) c = ossl_time_add a (ossl_time_add b c).
Proof.
  intros SM a b c.
  assert (Ha : time_wf a) by (subst a; wf_literal).
  assert (Hb : time_wf b) by (subst b; wf_literal).
  assert (Hc : time_wf c) by (subst c; wf_literal).
  exact (conj Ha (conj Hb (conj Hc (ossl_time_add_assoc a b c Ha Hb Hc)))).
Defined.

(** X7.  A sum never compares below either of its operands: addition cannot
    wrap around to an earlier time. *)
Theorem ossl_time_add_not_below {SM : SafeMathUnsigned} (a b : OSSL_TIME) :
  time_wf a -> time_wf b ->
  ossl_time_compare a (ossl_time_add a b) <= 0 /\
  ossl_time_compare b (ossl_time_add a b) <= 0.
Proof. intros Ha Hb. split; to_ticks; u64_open; lia. Qed.

Lemma ossl_time_add_not_below_witness :
  let SM := reference_safe_math in
  let a := ossl_ticks2time 18446744073709551615 in
  let b := ossl_ticks2time 18446744073709551615 in
  time_wf a /\ time_wf b /\
  (ossl_time_compare a (ossl_time_add a b) <= 0 /\
   ossl_time_compare b (ossl_time_add a b) <= 0).
Proof.
  intros SM a b.
  assert (Ha : time_wf a) by (subst a; wf_literal).
  assert (Hb : time_wf b) by (subst b; wf_literal).
  exact (conj Ha (conj Hb (ossl_time_add_not_below a b Ha Hb))).
Defined.

(** X8.  A sum is the infinite time exactly when the exact sum of the tick
    counts is at least [2^64-1]: an exact result of [2^64-1] and an overflow
    give the same value.  Hence the infinite time absorbs every operand. *)
Theorem ossl_time_add_infinite_iff {SM : SafeMathUnsigned}
    (a b : OSSL_TIME) :
  time_wf a -> time_wf b ->
  (ossl_time_add a b = ossl_time_infinite <-> 2 ^ 64 - 1 <= t a + t b) /\
  ossl_time_add ossl_time_infinite a = ossl_time_infinite /\
  ossl_time_add a ossl_time_infinite = ossl_time_infinite.
Proof.
  intros Ha Hb. split; [split | split].
  - intros E. apply (f_equal t) in E. revert E. to_ticks. u64_open. lia.
  - intros Hs. to_ticks. u64_open. lia.
  - to_ticks. u64_open. lia.
  - to_ticks. u64_open. lia.
Qed.

Lemma ossl_time_add_infinite_iff_witness :
  let SM := reference_safe_math in
  let a := ossl_ticks2time 18446744073709551614 in
  let b := ossl_ticks2time 1 in
  time_wf a /\ time_wf b /\
  ((ossl_time_add a b = ossl_time_infinite <-> 2 ^ 64 - 1 <= t a + t b) /\
   ossl_time_add ossl_time_infinite a = ossl_time_infinite /\
   ossl_time_add a ossl_time_infinite = ossl_time_infinite).
Proof.
  intros SM a b.
  assert (Ha : time_wf a) by (subst a; wf_literal).
  assert (Hb : time_wf b) by (subst b; wf_literal).
  exact (conj Ha (conj Hb (ossl_time_add_infinite_iff a b Ha Hb))).
Defined.

(** X9.  Addition is monotone: a later operand never gives an earlier
    sum. *)
Theorem ossl_time_add_monotone {SM : SafeMathUnsigned}
    (a a' b : OSSL_TIME) :
  time_wf a -> time_wf a' -> time_wf b ->
  ossl_time_compare a a' <= 0 ->
  ossl_time_compare (ossl_time_add a b) (ossl_time_add a' b) <= 0.
Proof. intros Ha Ha' Hb. rewrite compare_le_iff. intros Hle. to_ticks. lia. Qed.

Lemma ossl_time_add_monotone_witness :
  let SM := reference_safe_math in
  let a := ossl_ticks2time 10 in
  let a' := ossl_ticks2time 18446744073709551610 in
  let b := ossl_ticks2time 20 in
  time_wf a /\ time_wf a' /\ time_wf b /\
  ossl_time_compare a a' <= 0 /\
  ossl_time_compare (ossl_time_add a b) (ossl_time_add a' b) <= 0.
Proof.
  intros SM a a' b.
  assert (Ha : time_wf a) by (subst a; wf_literal).
  assert (Ha' : time_wf a') by (subst a'; wf_literal).
  assert (Hb : time_wf b) by (subst b; wf_literal).
  assert (Hle : ossl_time_compare a a' <= 0) by (vm_compute; discriminate).
  exact (conj Ha (conj Ha' (conj Hb (conj Hle
           (ossl_time_add_monotone a a' b Ha Ha' Hb Hle))))).
Defined.

(** ** Subtraction *)

(** X10.  Subtracting [b] and adding it back gives the later of [a] and [b]:
    it restores [a] when [b] is not later than [a], and gives [b] when the
    subtraction saturated. *)
Theorem ossl_time_subtract_add {SM : SafeMathUnsigned} (a b : OSSL_TIME) :
  time_wf a -> time_wf b ->
  ossl_time_add (ossl_time_subtract a b) b = ossl_time_max a b.
Proof. intros Ha Hb. to_ticks. u64_open. lia. Qed.

Lemma ossl_time_subtract_add_witness :
  let SM := reference_safe_math in
  let a := ossl_ticks2time 5 in
  let b := ossl_ticks2time 10 in
  time_wf a /\ time_wf b /\
  ossl_time_add (ossl_time_subtract a b) b = ossl_time_max a b.
Proof.
  intros SM a b.
  assert (Ha : time_wf a) by (subst a; wf_literal).
  assert (Hb : time_wf b) by (subst b; wf_literal).
  exact (conj Ha (conj Hb (ossl_time_subtract_add a b Ha Hb))).
Defined.

(** X11.  Adding [b] and subtracting it again never gives more than [a],
    also when the addition saturated. *)
Theorem ossl_time_add_subtract_not_above {SM : SafeMathUnsigned}
    (a b : OSSL_TIME) :
  time_wf a -> time_wf b ->
  ossl_time_compare (ossl_time_subtract (ossl_time_add a b) b) a <= 0.
Proof. intros Ha Hb. to_ticks. u64_open. lia. Qed.

Lemma ossl_time_add_subtract_not_above_witness :
  let SM := reference_safe_math in
  let a := ossl_ticks2time 18446744073709551615 in
  let b := ossl_ticks2time 100 in
  time_wf a /\ time_wf b /\
  ossl_time_compare (ossl_time_subtract (ossl_time_add a b) b) a <= 0.
Proof.
  intros SM a b.
  assert (Ha : time_wf a) by (subst a; wf_literal).
  assert (Hb : time_wf b) by (subst b; wf_literal).
  exact (conj Ha (conj Hb (ossl_time_add_subtract_not_above a b Ha Hb))).
Defined.

(** X12.  Edge cases of subtraction: a time minus itself is zero, subtracting
    zero changes nothing, and nothing can be taken from the zero time. *)
Theorem ossl_time_subtract_edges {SM : SafeMathUnsigned} (a : OSSL_TIME) :
  time_wf a ->
  ossl_time_subtract a a = ossl_time_zero /\
  ossl_time_subtract a ossl_time_zero = a /\
  ossl_time_subtract ossl_time_zero a = ossl_time_zero.
Proof. intros Ha. repeat split; to_ticks; u64_open; lia. Qed.

Lemma ossl_time_subtract_edges_witness :
  let SM := reference_safe_math in
  let a := ossl_ticks2time 18446744073709551615 in
  time_wf a /\
  (ossl_time_subtract a a = ossl_time_zero /\
   ossl_time_subtract a ossl_time_zero = a /\
   ossl_time_subtract ossl_time_zero a = ossl_time_zero).
Proof.
  intros SM a.
  assert (Ha : time_wf a) by (subst a; wf_literal).
  exact (conj Ha (ossl_time_subtract_edges a Ha)).
Defined.

(** X13.  Subtraction is monotone in its first operand and antitone in its
    second. *)
Theorem ossl_time_subtract_monotone {SM : SafeMathUnsigned}
    (a a' b b' : OSSL_TIME) :
  time_wf a -> time_wf a' -> time_wf b -> time_wf b' ->
  ossl_time_compare a a' <= 0 -> ossl_time_compare b b' <= 0 ->
  ossl_time_compare (ossl_time_subtract a b') (ossl_time_subtract a' b) <= 0.
Proof.
  intros Ha Ha' Hb Hb'. rewrite !compare_le_iff. intros Hla Hlb.
  to_ticks. lia.
Qed.

Lemma ossl_time_subtract_monotone_witness :
  let SM := reference_safe_math in
  let a := ossl_ticks2time 50 in
  let a' := ossl_ticks2time 80 in
  let b := ossl_ticks2time 20 in
  let b' := ossl_ticks2time 60 in
  time_wf a /\ time_wf a' /\ time_wf b /\ time_wf b' /\
  ossl_time_compare a a' <= 0 /\ ossl_time_compare b b' <= 0 /\
  ossl_time_compare (ossl_time_subtract a b') (ossl_time_subtract a' b) <= 0.
Proof.
  intros SM a a' b b'.
  assert (Ha : time_wf a) by (subst a; wf_literal).
  assert (Ha' : time_wf a') by (subst a'; wf_literal).
  assert (Hb : time_wf b) by (subst b; wf_literal).
  assert (Hb' : time_wf b') by (subst b'; wf_literal).
  assert (Hla : ossl_time_compare a a' <= 0) by (vm_compute; discriminate).
  assert (Hlb : ossl_time_compare b b' <= 0) by (vm_compute; discriminate).
  exact (conj Ha (conj Ha' (conj Hb (conj Hb' (conj Hla (conj Hlb
    (ossl_time_subtract_monotone a a' b b' Ha Ha' Hb Hb' Hla Hlb))))))).
Defined.

(** X14.  Subtracting [b] and then [c] is subtracting their saturating sum:
    the two saturations agree. *)
Theorem ossl_time_subtract_subtract {SM : SafeMathUnsigned}
    (a b c : OSSL_TIME) :
  time_wf a -> time_wf b -> time_wf c ->
  ossl_time_subtract (ossl_time_subtract a b) c
  = ossl_time_subtract a (ossl_time_add b c).
Proof. intros Ha Hb Hc. to_ticks. u64_open. lia. Qed.

Lemma ossl_time_subtract_subtract_witness :
  let SM := reference_safe_math in
  let a := ossl_ticks2time 18446744073709551615 in
  let b := ossl_ticks2time 18446744073709551000 in
  let c := ossl_ticks2time 1000 in
  time_wf a /\ time_wf b /\ time_wf c /\
  ossl_time_subtract (ossl_time_subtract a b) c
  = ossl_time_subtract a (ossl_time_add b c).
Proof.
  intros SM a b c.
  assert (Ha : time_wf a) by (subst a; wf_literal).
  assert (Hb : time_wf b) by (subst b; wf_literal).
  assert (Hc : time_wf c) by (subst c; wf_literal).
  exact (conj Ha (conj Hb (conj Hc
           (ossl_time_subtract_subtract a b c Ha Hb Hc)))).
Defined.

(** ** Absolute difference *)

(** X15.  The absolute difference of two times is zero exactly when they are
    the same time. *)
Theorem ossl_time_abs_difference_zero_iff {SM : SafeMathUnsigned}
    (a b : OSSL_TIME) :
  time_wf a -> time_wf b ->
  (ossl_time_abs_difference a b = ossl_time_zero <-> a = b).
Proof.
  intros Ha Hb. split.
  - intros E. apply (f_equal t) in E. revert E. to_ticks. intros E.
    apply time_eq. lia.
  - intros <-. to_ticks. lia.
Qed.

Lemma ossl_time_abs_difference_zero_iff_witness :
  let SM := reference_safe_math in
  let a := ossl_ticks2time 42 in
  let b := ossl_ticks2time 42 in
  time_wf a /\ time_wf b /\
  (ossl_time_abs_difference a b = ossl_time_zero <-> a = b).
Proof.
  intros SM a b.
  assert (Ha : time_wf a) by (subst a; wf_literal).
  assert (Hb : time_wf b) by (subst b; wf_literal).
  exact (conj Ha (conj Hb (ossl_time_abs_difference_zero_iff a b Ha Hb))).
Defined.

(** X16.  The absolute difference satisfies the triangle inequality, with
    the two legs summed by the saturating addition. *)
Theorem ossl_time_abs_difference_triangle {SM : SafeMathUnsigned}
    (a b c : OSSL_TIME) :
  time_wf a -> time_wf b -> time_wf c ->
  ossl_time_compare
    (ossl_time_abs_difference a c)
    (ossl_time_add (ossl_time_abs_difference a b)
                   (ossl_time_abs_difference b c)) <= 0.
Proof. intros Ha Hb Hc. to_ticks. u64_open. lia. Qed.

Lemma ossl_time_abs_difference_triangle_witness :
  let SM := reference_safe_math in
  let a := ossl_ticks2time 0 in
  let b := ossl_ticks2time 18446744073709551615 in
  let c := ossl_ticks2time 3 in
  time_wf a /\ time_wf b /\ time_wf c /\
  ossl_time_compare
    (ossl_time_abs_difference a c)
    (ossl_time_add (ossl_time_abs_difference a b)
                   (ossl_time_abs_difference b c)) <= 0.
Proof.
  intros SM a b c.
  assert (Ha : time_wf a) by (subst a; wf_literal).
  assert (Hb : time_wf b) by (subst b; wf_literal).
  assert (Hc : time_wf c) by (subst c; wf_literal).
  exact (conj Ha (conj Hb (conj Hc
           (ossl_time_abs_difference_triangle a b c Ha Hb Hc)))).
Defined.

(** X17.  The earlier of two times plus their absolute difference is the
    later one; this sum never saturates. *)
Theorem ossl_time_min_plus_abs_difference {SM : SafeMathUnsigned}
    (a b : OSSL_TIME) :
  time_wf a -> time_wf b ->
  ossl_time_add (ossl_time_min a b) (ossl_time_abs_difference a b)
  = ossl_time_max a b.
Proof. intros Ha Hb. to_ticks. u64_open. lia. Qed.

Lemma ossl_time_min_plus_abs_difference_witness :
  let SM := reference_safe_math in
  let a := ossl_ticks2time 18446744073709551615 in
  let b := ossl_ticks2time 9 in
  time_wf a /\ time_wf b /\
  ossl_time_add (ossl_time_min a b) (ossl_time_abs_difference a b)
  = ossl_time_max a b.
Proof.
  intros SM a b.
  assert (Ha : time_wf a) by (subst a; wf_literal).
  assert (Hb : time_wf b) by (subst b; wf_literal).
  exact (conj Ha (conj Hb (ossl_time_min_plus_abs_difference a b Ha Hb))).
Defined.

(** ** Minimum and maximum *)

(** X18.  [ossl_time_max] and [ossl_time_min] are commutative and
    associative, and each absorbs the other. *)
Theorem ossl_time_min_max_lattice (a b c : OSSL_TIME) :
  ossl_time_max a b = ossl_time_max b a /\
  ossl_time_min a b = ossl_time_min b a /\
  ossl_time_max (ossl_time_max a b) c = ossl_time_max a (ossl_time_max b c) /\
  ossl_time_min (ossl_time_min a b) c = ossl_time_min a (ossl_time_min b c) /\
  ossl_time_max a (ossl_time_min a b) = a /\
  ossl_time_min a (ossl_time_max a b) = a.
Proof. repeat split; to_ticks; lia. Qed.

(** X19.  The maximum compares at least equal, and the minimum at most
    equal, to both operands; a time that bounds both operands bounds their
    maximum, respectively minimum. *)
Theorem ossl_time_min_max_bounds (a b c : OSSL_TIME) :
  ossl_time_compare a (ossl_time_max a b) <= 0 /\
  ossl_time_compare b (ossl_time_max a b) <= 0 /\
  ossl_time_compare (ossl_time_min a b) a <= 0 /\
  ossl_time_compare (ossl_time_min a b) b <= 0 /\
  (ossl_time_compare (ossl_time_max a b) c <= 0 <->
   ossl_time_compare a c <= 0 /\ ossl_time_compare b c <= 0) /\
  (ossl_time_compare c (ossl_time_min a b) <= 0 <->
   ossl_time_compare c a <= 0 /\ ossl_time_compare c b <= 0).
Proof. rewrite !compare_le_iff, !max_ticks, !min_ticks. lia. Qed.

(** ** Multiplication and division *)

(** X20.  Edge cases of multiplication: scaling by 0 gives the zero time,
    scaling by 1 changes nothing, and the zero time scales to itself. *)
Theorem ossl_time_multiply_edges {SM : SafeMathUnsigned}
    (a : OSSL_TIME) (s : Z) :
  time_wf a -> is_u64 s ->
  ossl_time_multiply a 0 = ossl_time_zero /\
  ossl_time_multiply a 1 = a /\
  ossl_time_multiply ossl_time_zero s = ossl_time_zero.
Proof.
  intros Ha Hs.
  assert (H0 : is_u64 0) by wf_literal.
  assert (H1 : is_u64 1) by wf_literal.
  repeat split; to_ticks; u64_open; lia.
Qed.

Lemma ossl_time_multiply_edges_witness :
  let SM := reference_safe_math in
  let a := ossl_ticks2time 18446744073709551615 in
  let s := 18446744073709551615 in
  time_wf a /\ is_u64 s /\
  (ossl_time_multiply a 0 = ossl_time_zero /\
   ossl_time_multiply a 1 = a /\
   ossl_time_multiply ossl_time_zero s = ossl_time_zero).
Proof.
  intros SM a s.
  assert (Ha : time_wf a) by (subst a; wf_literal).
  assert (Hs : is_u64 s) by (subst s; wf_literal).
  exact (conj Ha (conj Hs (ossl_time_multiply_edges a s Ha Hs))).
Defined.

(** X21.  A product is the infinite time exactly when the exact product of
    the tick count and the scalar is at least [2^64-1]. *)
Theorem ossl_time_multiply_infinite_iff {SM : SafeMathUnsigned}
    (a : OSSL_TIME) (s : Z) :
  time_wf a -> is_u64 s ->
  (ossl_time_multiply a s = ossl_time_infinite <-> 2 ^ 64 - 1 <= t a * s).
Proof.
  intros Ha Hs. split.
  - intros E. apply (f_equal t) in E. revert E. to_ticks. u64_open. lia.
  - intros Hp. to_ticks. u64_open. lia.
Qed.

Lemma ossl_time_multiply_infinite_iff_witness :
  let SM := reference_safe_math in
  let a := ossl_ticks2time 6148914691236517205 in
  let s := 3 in
  time_wf a /\ is_u64 s /\
  (ossl_time_multiply a s = ossl_time_infinite <-> 2 ^ 64 - 1 <= t a * s).
Proof.
  intros SM a s.
  assert (Ha : time_wf a) by (subst a; wf_literal).
  assert (Hs : is_u64 s) by (subst s; wf_literal).
  exact (conj Ha (conj Hs (ossl_time_multiply_infinite_iff a s Ha Hs))).
Defined.

(** X22.  Multiplication is repeated saturating addition: scaling by [s + 1]
    is scaling by [s] and adding the time once more. *)
Theorem ossl_time_multiply_succ {SM : SafeMathUnsigned}
    (a : OSSL_TIME) (s : Z) :
  time_wf a -> is_u64 s -> is_u64 (s + 1) ->
  ossl_time_multiply a (s + 1) = ossl_time_add (ossl_time_multiply a s) a.
Proof.
  intros Ha Hs Hs1. to_ticks. u64_open.
  destruct (Z.min_spec (t a * s) 18446744073709551615) as [[? ->] | [? ->]];
    nia.
Qed.

Lemma ossl_time_multiply_succ_witness :
  let SM := reference_safe_math in
  let a := ossl_ticks2time 9223372036854775807 in
  let s := 1 in
  time_wf a /\ is_u64 s /\ is_u64 (s + 1) /\
  ossl_time_multiply a (s + 1) = ossl_time_add (ossl_time_multiply a s) a.
Proof.
  intros SM a s.
  assert (Ha : time_wf a) by (subst a; wf_literal).
  assert (Hs : is_u64 s) by (subst s; wf_literal).
  assert (Hs1 : is_u64 (s + 1)) by (subst s; wf_literal).
  exact (conj Ha (conj Hs (conj Hs1
           (ossl_time_multiply_succ a s Ha Hs Hs1)))).
Defined.

(** X23.  Multiplication distributes over addition, saturation included. *)
Theorem ossl_time_multiply_add_distr {SM : SafeMathUnsigned}
    (a b : OSSL_TIME) (s : Z) :
  time_wf a -> time_wf b -> is_u64 s ->
  ossl_time_multiply (ossl_time_add a b) s
  = ossl_time_add (ossl_time_multiply a s) (ossl_time_multiply b s).
Proof.
  intros Ha Hb Hs. to_ticks. u64_open.
  destruct (Z.eq_dec s 0) as [-> | Hnz].
  - rewrite !Z.mul_0_r. lia.
  - destruct (Z.min_spec (t a + t b) 18446744073709551615) as [[? ->] | [? ->]];
      destruct (Z.min_spec (t a * s) 18446744073709551615) as [[? ->] | [? ->]];
      destruct (Z.min_spec (t b * s) 18446744073709551615) as [[? ->] | [? ->]];
      nia.
Qed.

Lemma ossl_time_multiply_add_distr_witness :
  let SM := reference_safe_math in
  let a := ossl_ticks2time 6148914691236517205 in
  let b := ossl_ticks2time 1 in
  let s := 3 in
  time_wf a /\ time_wf b /\ is_u64 s /\
  ossl_time_multiply (ossl_time_add a b) s
  = ossl_time_add (ossl_time_multiply a s) (ossl_time_multiply b s).
Proof.
  intros SM a b s.
  assert (Ha : time_wf a) by (subst a; wf_literal).
  assert (Hb : time_wf b) by (subst b; wf_literal).
  assert (Hs : is_u64 s) by (subst s; wf_literal).
  exact (conj Ha (conj Hb (conj Hs
           (ossl_time_multiply_add_distr a b s Ha Hb Hs)))).
Defined.

(** X24.  Scaling by a non-zero scalar and dividing by it again gives the
    time back, provided the product did not saturate. *)
Theorem ossl_time_multiply_divide {SM : SafeMathUnsigned}
    (a : OSSL_TIME) (s : Z) :
  time_wf a -> is_u64 s -> s <> 0 -> t a * s <= 2 ^ 64 - 1 ->
  ossl_time_divide (ossl_time_multiply a s) s = a.
Proof.
  intros Ha Hs Hnz Hp. to_ticks.
  destruct (Z.eqb_spec s 0); [contradiction | ].
  rewrite Z.min_l by (u64_open; lia).
  now apply Z.div_mul.
Qed.

Lemma ossl_time_multiply_divide_witness :
  let SM := reference_safe_math in
  let a := ossl_ticks2time 6148914691236517205 in
  let s := 3 in
  time_wf a /\ is_u64 s /\ s <> 0 /\ t a * s <= 2 ^ 64 - 1 /\
  ossl_time_divide (ossl_time_multiply a s) s = a.
Proof.
  intros SM a s.
  assert (Ha : time_wf a) by (subst a; wf_literal).
  assert (Hs : is_u64 s) by (subst s; wf_literal).
  assert (Hnz : s <> 0) by (subst s; lia).
  assert (Hp : t a * s <= 2 ^ 64 - 1)
    by (subst a s; cbn [ossl_ticks2time t]; lia).
  exact (conj Ha (conj Hs (conj Hnz (conj Hp
           (ossl_time_multiply_divide a s Ha Hs Hnz Hp))))).
Defined.

(** X25.  Dividing by a non-zero scalar and scaling back never saturates and
    loses less than the scalar: the result lies at most [s - 1] ticks below
    the original time. *)
Theorem ossl_time_divide_multiply {SM : SafeMathUnsigned}
    (a : OSSL_TIME) (s : Z) :
  time_wf a -> is_u64 s -> s <> 0 ->
  t (ossl_time_multiply (ossl_time_divide a s) s) <= t a
  /\ t a < t (ossl_time_multiply (ossl_time_divide a s) s) + s.
Proof.
  intros Ha Hs Hnz. to_ticks.
  destruct (Z.eqb_spec s 0); [contradiction | ].
  assert (Hpos : 0 < s) by (u64_open; lia).
  pose proof (Z.div_mod (t a) s Hnz) as Hdm.
  pose proof (Z.mod_pos_bound (t a) s Hpos) as Hm.
  u64_open. nia.
Qed.

Lemma ossl_time_divide_multiply_witness :
  let SM := reference_safe_math in
  let a := ossl_ticks2time 18446744073709551615 in
  let s := 1000 in
  time_wf a /\ is_u64 s /\ s <> 0 /\
  (t (ossl_time_multiply (ossl_time_divide a s) s) <= t a
   /\ t a < t (ossl_time_multiply (ossl_time_divide a s) s) + s).
Proof.
  intros SM a s.
  assert (Ha : time_wf a) by (subst a; wf_literal).
  assert (Hs : is_u64 s) by (subst s; wf_literal).
  assert (Hnz : s <> 0) by (subst s; lia).
  exact (conj Ha (conj Hs (conj Hnz
           (ossl_time_divide_multiply a s Ha Hs Hnz)))).
Defined.

(** X26.  A quotient never compares above the time divided, whatever the
    scalar; dividing by 1 changes nothing and the zero time divides to
    itself. *)
Theorem ossl_time_divide_edges {SM : SafeMathUnsigned}
    (a : OSSL_TIME) (s : Z) :
  time_wf a -> is_u64 s ->
  ossl_time_compare (ossl_time_divide a s) a <= 0 /\
  ossl_time_divide a 1 = a /\
  ossl_time_divide ossl_time_zero s = ossl_time_zero.
Proof.
  intros Ha Hs.
  assert (H1 : is_u64 1) by wf_literal.
  split; [ | split]; to_ticks.
  - destruct (Z.eqb_spec s 0); [u64_open; lia | ].
    apply Z.div_le_upper_bound; u64_open; nia.
  - cbn [Z.eqb]. apply Z.div_1_r.
  - destruct (s =? 0); reflexivity.
Qed.

Lemma ossl_time_divide_edges_witness :
  let SM := reference_safe_math in
  let a := ossl_ticks2time 18446744073709551615 in
  let s := 0 in
  time_wf a /\ is_u64 s /\
  (ossl_time_compare (ossl_time_divide a s) a <= 0 /\
   ossl_time_divide a 1 = a /\
   ossl_time_divide ossl_time_zero s = ossl_time_zero).
Proof.
  intros SM a s.
  assert (Ha : time_wf a) by (subst a; wf_literal).
  assert (Hs : is_u64 s) by (subst s; wf_literal).
  exact (conj Ha (conj Hs (ossl_time_divide_edges a s Ha Hs))).
Defined.

(** X27.  Scaling preserves the order of times: multiplying or dividing two
    times by the same scalar never reverses them.  For a non-zero scalar a
    product never compares below the time scaled. *)
Theorem ossl_time_scale_monotone {SM : SafeMathUnsigned}
    (a a' : OSSL_TIME) (s : Z) :
  time_wf a -> time_wf a' -> is_u64 s ->
  ossl_time_compare a a' <= 0 ->
  ossl_time_compare (ossl_time_multiply a s) (ossl_time_multiply a' s) <= 0 /\
  ossl_time_compare (ossl_time_divide a s) (ossl_time_divide a' s) <= 0 /\
  (s <> 0 -> ossl_time_compare a (ossl_time_multiply a s) <= 0).
Proof.
  intros Ha Ha' Hs. rewrite compare_le_iff. intros Hle.
  split; [ | split]; [ | | intros Hnz]; to_ticks.
  - u64_open.
    apply Z.min_le_compat_r. apply Z.mul_le_mono_nonneg_r; lia.
  - destruct (Z.eqb_spec s 0); [lia | ].
    apply Z.div_le_mono; u64_open; lia.
  - u64_open. nia.
Qed.

Lemma ossl_time_scale_monotone_witness :
  let SM := reference_safe_math in
  let a := ossl_ticks2time 1000 in
  let a' := ossl_ticks2time 18446744073709551615 in
  let s := 7 in
  time_wf a /\ time_wf a' /\ is_u64 s /\ ossl_time_compare a a' <= 0 /\
  (ossl_time_compare (ossl_time_multiply a s) (ossl_time_multiply a' s) <= 0 /\
   ossl_time_compare (ossl_time_divide a s) (ossl_time_divide a' s) <= 0 /\
   (s <> 0 -> ossl_time_compare a (ossl_time_multiply a s) <= 0)).
Proof.
  intros SM a a' s.
  assert (Ha : time_wf a) by (subst a; wf_literal).
  assert (Ha' : time_wf a') by (subst a'; wf_literal).
  assert (Hs : is_u64 s) by (subst s; wf_literal).
  assert (Hle : ossl_time_compare a a' <= 0) by (vm_compute; discriminate).
  exact (conj Ha (conj Ha' (conj Hs (conj Hle
           (ossl_time_scale_monotone a a' s Ha Ha' Hs Hle))))).
Defined.

(** ** Conversion to seconds and microseconds, continued *)

(** The cast to a signed type always lands in the range of that type. *)
Lemma cast_signed_range (bits z : Z) :
  1 <= bits ->
  - 2 ^ (bits - 1) <= cast_signed bits z < 2 ^ (bits - 1).
Proof.
  intros Hbits. unfold cast_signed.
  assert (Hh : 0 < 2 ^ (bits - 1)) by (apply Z.pow_pos_nonneg; lia).
  assert (E : 2 ^ bits = 2 * 2 ^ (bits - 1)).
  { rewrite <- Z.pow_succ_r by lia. f_equal. lia. }
  pose proof (Z.mod_pos_bound (z + 2 ^ (bits - 1)) (2 ^ bits) ltac:(lia)).
  lia.
Qed.

(** X28.  The conversion loses less than one microsecond: with fields wide
    enough for their values (36 and 21 bits), the seconds and microseconds
    written, read back as ticks, lie at most 999 ticks below the time
    converted, whatever [*out] held before. *)
Theorem ossl_time_time_to_timeval_loss
    (sec_bits usec_bits : Z) (tm : OSSL_TIME) (out : timeval) :
  36 <= sec_bits -> 21 <= usec_bits -> time_wf tm ->
  let tv := ossl_time_time_to_timeval sec_bits usec_bits tm out in
  let back := tv_sec tv * OSSL_TIME_SECOND + tv_usec tv * OSSL_TIME_US in
  back <= t tm < back + OSSL_TIME_US.
Proof.
  intros Hs Hu Htm tv back. subst back tv.
  rewrite timeval_fields by assumption. cbn [tv_sec tv_usec].
  change OSSL_TIME_US with 1000. change OSSL_TIME_SECOND with 1000000000.
  pose proof (Z.div_mod (t tm) 1000000000 ltac:(lia)) as Hq.
  pose proof (Z.div_mod (t tm mod 1000000000) 1000 ltac:(lia)) as Hq'.
  pose proof (Z.mod_pos_bound (t tm mod 1000000000) 1000 eq_refl) as Hr.
  lia.
Qed.

Lemma ossl_time_time_to_timeval_loss_witness :
  let tm := ossl_ticks2time 1999999999 in
  let out := {| tv_sec := 7; tv_usec := 7 |} in
  36 <= 36 /\ 21 <= 21 /\ time_wf tm /\
  (let tv := ossl_time_time_to_timeval 36 21 tm out in
   let back := tv_sec tv * OSSL_TIME_SECOND + tv_usec tv * OSSL_TIME_US in
   back <= t tm < back + OSSL_TIME_US).
Proof.
  intros tm out.
  assert (Hs : 36 <= 36) by lia.
  assert (Hu : 21 <= 21) by lia.
  assert (Htm : time_wf tm) by (subst tm; wf_literal).
  exact (conj Hs (conj Hu (conj Htm
           (ossl_time_time_to_timeval_loss 36 21 tm out Hs Hu Htm)))).
Defined.

(** X29.  The conversion preserves the order of times: for fields wide
    enough, a time that is not later converts to seconds and microseconds
    that are not later, compared field by field. *)
Theorem ossl_time_time_to_timeval_monotone
    (sec_bits usec_bits : Z) (a b : OSSL_TIME) (out out' : timeval) :
  36 <= sec_bits -> 21 <= usec_bits -> time_wf a -> time_wf b ->
  ossl_time_compare a b <= 0 ->
  let tva := ossl_time_time_to_timeval sec_bits usec_bits a out in
  let tvb := ossl_time_time_to_timeval sec_bits usec_bits b out' in
  tv_sec tva < tv_sec tvb \/
  (tv_sec tva = tv_sec tvb /\ tv_usec tva <= tv_usec tvb).
Proof.
  intros Hs Hu Ha Hb. rewrite compare_le_iff. intros Hle tva tvb.
  subst tva tvb. rewrite !timeval_fields by assumption.
  cbn [tv_sec tv_usec].
  assert (Hq : t a / 1000000000 <= t b / 1000000000)
    by (apply Z.div_le_mono; lia).
  destruct (Z.eq_dec (t a / 1000000000) (t b / 1000000000)) as [E | N].
  - right. split; [exact E | ].
    apply Z.div_le_mono; [lia | ].
    pose proof (Z.div_mod (t a) 1000000000 ltac:(lia)).
    pose proof (Z.div_mod (t b) 1000000000 ltac:(lia)).
    lia.
  - left. lia.
Qed.

Lemma ossl_time_time_to_timeval_monotone_witness :
  let a := ossl_ticks2time 1999999999 in
  let b := ossl_ticks2time 2000000000 in
  let out := {| tv_sec := 0; tv_usec := 0 |} in
  36 <= 64 /\ 21 <= 32 /\ time_wf a /\ time_wf b /\
  ossl_time_compare a b <= 0 /\
  (let tva := ossl_time_time_to_timeval 64 32 a out in
   let tvb := ossl_time_time_to_timeval 64 32 b out in
   tv_sec tva < tv_sec tvb \/
   (tv_sec tva = tv_sec tvb /\ tv_usec tva <= tv_usec tvb)).
Proof.
  intros a b out.
  assert (Hs : 36 <= 64) by lia.
  assert (Hu : 21 <= 32) by lia.
  assert (Ha : time_wf a) by (subst a; wf_literal).
  assert (Hb : time_wf b) by (subst b; wf_literal).
  assert (Hle : ossl_time_compare a b <= 0) by (vm_compute; discriminate).
  exact (conj Hs (conj Hu (conj Ha (conj Hb (conj Hle
    (ossl_time_time_to_timeval_monotone 64 32 a b out out
       Hs Hu Ha Hb Hle)))))).
Defined.

(** X30.  The seconds written are the quotient of the tick count by
    1,000,000,000 exactly when that quotient fits the signed seconds field.
    For a 32-bit field this holds exactly for times below
    2,147,483,648 seconds. *)
Theorem ossl_time_time_to_timeval_seconds_fit
    (sec_bits usec_bits : Z) (tm : OSSL_TIME) (out : timeval) :
  1 <= sec_bits -> time_wf tm ->
  (tv_sec (ossl_time_time_to_timeval sec_bits usec_bits tm out)
   = t tm / OSSL_TIME_SECOND
   <-> t tm / OSSL_TIME_SECOND < 2 ^ (sec_bits - 1)) /\
  (tv_sec (ossl_time_time_to_timeval 32 usec_bits tm out)
   = t tm / OSSL_TIME_SECOND
   <-> t tm < 2147483648 * OSSL_TIME_SECOND).
Proof.
  intros Hbits Htm.
  assert (Hq : 0 <= t tm / OSSL_TIME_SECOND)
    by (apply Z.div_pos; [u64_open; lia | reflexivity]).
  assert (G : forall bits, 1 <= bits ->
            (tv_sec (ossl_time_time_to_timeval bits usec_bits tm out)
             = t tm / OSSL_TIME_SECOND
             <-> t tm / OSSL_TIME_SECOND < 2 ^ (bits - 1))).
  { intros bits Hb. unfold ossl_time_time_to_timeval. cbn [tv_sec]. split.
    - intros E. rewrite <- E. now apply cast_signed_range.
    - intros Hlt. apply cast_signed_small; [assumption | lia]. }
  split; [now apply G | ].
  rewrite (G 32) by lia. change (2 ^ (32 - 1)) with 2147483648.
  change OSSL_TIME_SECOND with 1000000000. split.
  - intros Hlt.
    pose proof (Z.div_mod (t tm) 1000000000 ltac:(lia)).
    pose proof (Z.mod_pos_bound (t tm) 1000000000 eq_refl).
    lia.
  - intros Hlt. apply Z.div_lt_upper_bound; lia.
Qed.

Lemma ossl_time_time_to_timeval_seconds_fit_witness :
  let tm := ossl_ticks2time 2147483648000000000 in
  let out := {| tv_sec := 0; tv_usec := 0 |} in
  1 <= 32 /\ time_wf tm /\
  ((tv_sec (ossl_time_time_to_timeval 32 32 tm out)
    = t tm / OSSL_TIME_SECOND
    <-> t tm / OSSL_TIME_SECOND < 2 ^ (32 - 1)) /\
   (tv_sec (ossl_time_time_to_timeval 32 32 tm out)
    = t tm / OSSL_TIME_SECOND
    <-> t tm < 2147483648 * OSSL_TIME_SECOND)).
Proof.
  intros tm out.
  assert (Hb : 1 <= 32) by lia.
  assert (Htm : time_wf tm) by (subst tm; wf_literal).
  exact (conj Hb (conj Htm
           (ossl_time_time_to_timeval_seconds_fit 32 32 tm out Hb Htm))).
Defined.
